(** * GraphAdapterFactory: a shallow embedding of
      [src/knowledge/adapters/factory.py]

    The factory is a class holding one class attribute, [_registry], a dict
    from graph-type tags to adapter classes, and six class methods.  The
    registry is the only state; it is threaded explicitly through a small
    state-and-exception monad.  Python values, truthiness, [dict.get],
    [os.environ.get] and the call of a registered value are modelled as the
    interpreter performs them. *)

From stdpp Require Import gmap strings list fin_maps.

Open Scope string_scope.
Set Warnings "-register-all".

(** ** Python values *)

(** The values that flow through the factory.  A class object is named by
    its class name; an instance records its class and the keyword arguments
    its constructor kept. *)
Inductive value : Type :=
| VNone
| VBool (b : bool)
| VInt (n : Z)
| VStr (s : string)
| VDict (items : list (string * value))
| VClass (name : string)
| VObj (cls : string) (fields : list (string * value)).

(** The keyword arguments a call collects: names with their values, in call
    order. *)
Abbreviation kwargs := (list (string * value)).

(** [bool(v)]: [None], [False], [0], the empty string and the empty dict
    are falsy; class objects (under the default metaclass) and plain
    instances are truthy. *)
Definition truthy (v : value) : bool :=
  match v with
  | VNone => false
  | VBool b => b
  | VInt n => negb (n =? 0)%Z
  | VStr s => match s with EmptyString => false | String _ _ => true end
  | VDict items => match items with [] => false | _ :: _ => true end
  | VClass _ => true
  | VObj _ _ => true
  end.

(** [type(v).__name__], as it appears in the interpreter's messages. *)
Definition type_name (v : value) : string :=
  match v with
  | VNone => "NoneType"
  | VBool _ => "bool"
  | VInt _ => "int"
  | VStr _ => "str"
  | VDict _ => "dict"
  | VClass _ => "type"
  | VObj cls _ => cls
  end.

(** [d[k]] on a dict literal; the first binding of a key is the one kept
    here, and the literals of this file never repeat a key. *)
Fixpoint dict_get (k : string) (items : list (string * value)) : option value :=
  match items with
  | [] => None
  | (k', v) :: rest => if String.eqb k k' then Some v else dict_get k rest
  end.

(** ** Exceptions and results *)

Inductive exn : Type :=
| ValueError (msg : string)
| TypeError (msg : string)
| OtherError (kind msg : string).

Inductive result (A : Type) : Type :=
| Ok (a : A)
| Raise (e : exn).
Arguments Ok {A} a.
Arguments Raise {A} e.

(** ** The registry and the monad that threads it *)

(** [cls._registry]: a dict from tags to whatever was stored under them. *)
Abbreviation registry := (gmap string value).

(** A method body: from the registry before the call to the outcome and the
    registry after it.  A raised exception keeps the mutations made so far. *)
Definition M (A : Type) : Type := registry → result A * registry.

Definition ret {A} (a : A) : M A := λ reg, (Ok a, reg).

Definition bind {A B} (m : M A) (k : A → M B) : M B :=
  λ reg, match m reg with
         | (Ok a, reg') => k a reg'
         | (Raise e, reg') => (Raise e, reg')
         end.

Definition raise {A} (e : exn) : M A := λ reg, (Raise e, reg).

Definition lift {A} (r : result A) : M A := λ reg, (r, reg).

Definition get_registry : M registry := λ reg, (Ok reg, reg).

Definition set_item (k : string) (v : value) : M unit :=
  λ reg, (Ok tt, <[k := v]> reg).

Notation "x <- m ;; k" := (bind m (λ x, k))
  (at level 100, m at next level, right associativity, only parsing).
Notation "m ;;; k" := (bind m (λ _, k))
  (at level 100, right associativity, only parsing).

(** The class attribute as the class body initialises it (lines 13-16). *)
Definition initial_registry : registry :=
  <["upload" := VClass "UploadGraphAdapter"]>
    (<["lightrag" := VClass "LightRAGGraphAdapter"]> ∅).

(** ** Collaborators passed in by the caller *)

(** A knowledge-base manager as [detect_graph_type] sees it: its truth value
    and, when [hasattr] finds it, its [is_lightrag_database] method, which
    returns any value or raises. *)
Record manager : Type := {
  mgr_truth : bool;
  mgr_is_lightrag_database : option (string → result value)
}.

(** ** Sample collaborators, for running the methods on concrete inputs *)

(** A constructor that keeps its keyword arguments in the instance. *)
Definition record_instance (name : string) (kw : kwargs) : result value :=
  Ok (VObj name kw).

(** A label derivation. *)
Definition prefix_label (db_id : string) : string := "kb_" +:+ db_id.

(** A manager for which every identifier is a LightRAG database. *)
Definition lightrag_manager : manager :=
  {| mgr_truth := true;
     mgr_is_lightrag_database := Some (λ _, Ok (VBool true)) |}.

(** A manager whose classification call raises. *)
Definition failing_manager : manager :=
  {| mgr_truth := true;
     mgr_is_lightrag_database :=
       Some (λ _, Raise (OtherError "RuntimeError" "metadata store unavailable")) |}.

(** A manager that answers true but is itself falsy, as an object whose
    [__len__] is 0 would be. *)
Definition falsy_manager : manager :=
  {| mgr_truth := false;
     mgr_is_lightrag_database := Some (λ _, Ok (VBool true)) |}.

Section Factory.

(** Instantiating the class of that name with keyword arguments: the
    adapter constructors are outside this file; a constructor returns an
    instance or raises. *)
Variable construct : string → kwargs → result value.

(** Modelled from the spec: [derive_kb_node_label], imported from
    [src.knowledge.utils.kb_utils], is missing; the spec gives it as a pure
    function from an identifier to a label string. *)
Variable derive_kb_node_label : string → string.

(** [os.environ]. *)
Variable environ : gmap string string.

(** [os.environ.get(key, default)]. *)
Definition environ_get (key default : string) : string :=
  match environ !! key with
  | Some s => s
  | None => default
  end.

(** Calling [f] with keyword arguments [kw]: a class is instantiated,
    anything else the registry may hold is not callable. *)
Definition call (f : value) (kw : kwargs) : result value :=
  match f with
  | VClass name => construct name kw
  | _ => Raise (TypeError ("'" +:+ type_name f +:+ "' object is not callable"))
  end.

(** ** The class methods *)

(** Lines 18-21. *)
Definition register (graph_type : string) (adapter_class : value) : M unit :=
  set_item graph_type adapter_class.

(** Lines 23-30.  [kw] is what the call binds to the keyword catch-all of
    the signature, passed on as it is.  [dict.get] answers [None] for a
    missing key, and the test is on the truth value of what was found. *)
Definition create_adapter (graph_type : string) (kw : kwargs) : M value :=
  reg <- get_registry ;;
  let adapter_class := default VNone (reg !! graph_type) in
  if negb (truthy adapter_class)
  then raise (ValueError ("Unknown graph type: " +:+ graph_type))
  else lift (call adapter_class kw).

(** Lines 32-38. *)
Definition get_supported_types : M value :=
  ret (VDict [ ("upload", VStr "上传文件图谱 - 支持embedding和阈值查询");
               ("lightrag", VStr "LightRAG知识图谱 - 基于kb_id标签的图谱") ]).

(** Lines 40-58.  The registry is not consulted. *)
Definition detect_graph_type (db_id : string)
    (knowledge_base_manager : option manager) : result string :=
  match knowledge_base_manager with
  | Some m =>
      if mgr_truth m then
        match mgr_is_lightrag_database m with
        | Some is_lightrag_database =>
            match is_lightrag_database db_id with
            | Ok v => if truthy v then Ok "lightrag" else Ok "upload"
            | Raise e => Raise e
            end
        | None => Ok "upload"
        end
      else Ok "upload"
  | None => Ok "upload"
  end.

(** Lines 60-88. *)
Definition create_adapter_by_db_id (db_id : string)
    (knowledge_base_manager : option manager)
    (graph_db_instance : value) : M value :=
  graph_type <- lift (detect_graph_type db_id knowledge_base_manager) ;;
  if String.eqb graph_type "lightrag"
  then create_adapter "lightrag" [ ("config", VDict [ ("kb_id", VStr db_id) ]) ]
  else create_adapter "upload"
         [ ("graph_db_instance", graph_db_instance);
           ("config", VDict [ ("kgdb_name", VStr (environ_get "NEO4J_DATABASE" "neo4j"));
                              ("kb_label", VStr (derive_kb_node_label db_id));
                              ("kb_id", VStr db_id) ]) ].

(** Lines 90-95. *)
Definition create_adapter_for_db_id (db_id : string)
    (knowledge_base_manager : option manager)
    (graph_db_instance : value) : M value :=
  create_adapter_by_db_id db_id knowledge_base_manager graph_db_instance.

(** ** Clients of the factory *)

(** One call on the public surface of the class. *)
Inductive api_call : Type :=
| Register (graph_type : string) (adapter_class : value)
| CreateAdapter (graph_type : string) (kw : kwargs)
| GetSupportedTypes
| DetectGraphType (db_id : string) (knowledge_base_manager : option manager)
| CreateAdapterByDbId (db_id : string)
    (knowledge_base_manager : option manager) (graph_db_instance : value)
| CreateAdapterForDbId (db_id : string)
    (knowledge_base_manager : option manager) (graph_db_instance : value).

(** What the call does; a method without a [return] answers [None]. *)
Definition perform (c : api_call) : M value :=
  match c with
  | Register t v => register t v ;;; ret VNone
  | CreateAdapter t kw => create_adapter t kw
  | GetSupportedTypes => get_supported_types
  | DetectGraphType d m => s <- lift (detect_graph_type d m) ;; ret (VStr s)
  | CreateAdapterByDbId d m g => create_adapter_by_db_id d m g
  | CreateAdapterForDbId d m g => create_adapter_for_db_id d m g
  end.

(** The registry left behind by a client that makes the calls in order and
    carries on after each of them, whether it returned or raised. *)
Fixpoint registry_after (calls : list api_call) (reg : registry) : registry :=
  match calls with
  | [] => reg
  | c :: rest => registry_after rest (snd (perform c reg))
  end.

(** The two tags the class body registers. *)
Definition builtin_types : gset string := {[ "upload"; "lightrag" ]}.

(** The [register] calls among [calls], oldest first, each as the tag and
    the value it stored. *)
Fixpoint registrations (calls : list api_call) : list (string * value) :=
  match calls with
  | [] => []
  | Register t v :: rest => (t, v) :: registrations rest
  | _ :: rest => registrations rest
  end.

(** [reg[t] = v] for each pair in turn. *)
Definition store_all (reg : registry) (items : list (string * value)) : registry :=
  foldl (λ r tv, <[tv.1 := tv.2]> r) reg items.

(** What the latest [register] call for tag [t] among [calls] stored, if
    there was one. *)
Fixpoint last_registered (t : string) (calls : list api_call) : option value :=
  match calls with
  | [] => None
  | c :: rest =>
      match last_registered t rest with
      | Some v => Some v
      | None =>
          match c with
          | Register t' v => if String.eqb t' t then Some v else None
          | _ => None
          end
      end
  end.

(** A class object, which is what the annotation of [_registry] and of
    [register] asks for. *)
Definition is_class (v : value) : bool :=
  match v with
  | VClass _ => true
  | _ => false
  end.

(** A client that only ever registers classes. *)
Definition registers_classes (calls : list api_call) : bool :=
  forallb (λ tv, is_class tv.2) (registrations calls).

(** The keys of a dict value, in order; anything else has none here. *)
Definition dict_keys (v : value) : list string :=
  match v with
  | VDict items => items.*1
  | _ => []
  end.

(** ** Properties *)

(** *** Unfolding [create_adapter] *)

Lemma create_adapter_unfold t kw (reg : registry) :
  create_adapter t kw reg =
    (if truthy (default VNone (reg !! t))
     then call (default VNone (reg !! t)) kw
     else Raise (ValueError ("Unknown graph type: " +:+ t)),
     reg).
Proof.
  unfold create_adapter, bind, get_registry, raise, lift.
  destruct (truthy (default VNone (reg !! t))); reflexivity.
Qed.

Lemma create_adapter_truthy t v kw (reg : registry) :
  reg !! t = Some v → truthy v = true →
  create_adapter t kw reg = (call v kw, reg).
Proof.
  intros Hreg Htr. rewrite create_adapter_unfold, Hreg. simpl.
  rewrite Htr. reflexivity.
Qed.

Lemma create_adapter_falsy t kw (reg : registry) :
  truthy (default VNone (reg !! t)) = false →
  create_adapter t kw reg
    = (Raise (ValueError ("Unknown graph type: " +:+ t)), reg).
Proof. intros Htr. rewrite create_adapter_unfold, Htr. reflexivity. Qed.

Lemma create_adapter_registry t kw (reg : registry) :
  snd (create_adapter t kw reg) = reg.
Proof. rewrite create_adapter_unfold. reflexivity. Qed.

Lemma create_adapter_by_db_id_registry d m g (reg : registry) :
  snd (create_adapter_by_db_id d m g reg) = reg.
Proof.
  unfold create_adapter_by_db_id, bind, lift.
  destruct (detect_graph_type d m) as [s|e]; [|reflexivity].
  destruct (String.eqb s "lightrag"); apply create_adapter_registry.
Qed.

Lemma detect_graph_type_cases d m s :
  detect_graph_type d m = Ok s → s = "lightrag" ∨ s = "upload".
Proof.
  unfold detect_graph_type.
  destruct m as [[tr [f|]]|]; simpl; try destruct tr; try (intros [= <-]; by right).
  destruct (f d) as [v|e]; [|discriminate].
  destruct (truthy v); intros [= <-]; [by left | by right].
Qed.

(** *** create_adapter *)

(** C1 (as amended): for every tag whose registry entry is a constructor (a
    class, hence truthy) and every keyword options, [create_adapter] answers
    exactly what that constructor answers when invoked with those options,
    unchanged, and leaves the registry as it was. *)
Theorem create_adapter_constructs t c kw (reg : registry) :
  reg !! t = Some (VClass c) →
  create_adapter t kw reg = (construct c kw, reg).
Proof.
  intros Hreg. by apply (create_adapter_truthy t (VClass c)).
Qed.

(** C2 (as amended): a tag absent from the registry makes [create_adapter]
    raise the unknown-type error, whose message ends with the tag, at once
    and without touching the registry.  That error is the only exception the
    factory itself raises, and it raises it as well for a present tag whose
    entry is falsy.  With a truthy entry the outcome of [create_adapter] is
    exactly the outcome of calling that entry with the options: the
    constructor's instance or the constructor's own exception for a class,
    the interpreter's not-callable [TypeError] for a bool, number, string or
    dict; nothing is caught or translated.  [create_adapter_by_db_id] passes
    on the exception of the manager's classification call as it is, and is
    otherwise exactly its one [create_adapter] call for the detected type. *)
Theorem create_adapter_unknown_type t kw (reg : registry) :
  reg !! t = None →
  create_adapter t kw reg
    = (Raise (ValueError ("Unknown graph type: " +:+ t)), reg)
  ∧ (∀ t' kw' (reg' : registry),
       truthy (default VNone (reg' !! t')) = false →
       create_adapter t' kw' reg'
         = (Raise (ValueError ("Unknown graph type: " +:+ t')), reg'))
  ∧ (∀ t' v kw' (reg' : registry),
       reg' !! t' = Some v → truthy v = true →
       create_adapter t' kw' reg' = (call v kw', reg'))
  ∧ (∀ t' c kw' (reg' : registry),
       reg' !! t' = Some (VClass c) →
       create_adapter t' kw' reg' = (construct c kw', reg'))
  ∧ (∀ t' v kw' (reg' : registry),
       reg' !! t' = Some v → truthy v = true →
       (∃ b, v = VBool b) ∨ (∃ n, v = VInt n) ∨ (∃ s, v = VStr s)
         ∨ (∃ items, v = VDict items) →
       create_adapter t' kw' reg'
         = (Raise (TypeError ("'" +:+ type_name v +:+ "' object is not callable")),
            reg'))
  ∧ (∀ t' kw' (reg' reg'' : registry) e,
       create_adapter t' kw' reg' = (Raise e, reg'') →
       reg'' = reg'
       ∧ (e = ValueError ("Unknown graph type: " +:+ t')
            ∧ truthy (default VNone (reg' !! t')) = false
          ∨ ∃ v, reg' !! t' = Some v ∧ truthy v = true ∧ call v kw' = Raise e))
  ∧ (∀ d m g (reg' : registry) e,
       detect_graph_type d m = Raise e →
       create_adapter_by_db_id d m g reg' = (Raise e, reg'))
  ∧ (∀ d m g (reg' : registry) graph_type,
       detect_graph_type d m = Ok graph_type →
       ∃ kw', create_adapter_by_db_id d m g reg'
              = create_adapter graph_type kw' reg').
Proof.
  intros Hreg. repeat apply conj.
  - apply create_adapter_falsy. by rewrite Hreg.
  - intros t' kw' reg'. apply create_adapter_falsy.
  - intros t' v kw' reg'. apply create_adapter_truthy.
  - intros t' c kw' reg' Hc.
    by apply (create_adapter_truthy t' (VClass c)).
  - intros t' v kw' reg' Hv Htr Hkind.
    rewrite (create_adapter_truthy t' v kw' reg' Hv Htr).
    destruct Hkind as [[? ->]|[[? ->]|[[? ->]|[? ->]]]]; reflexivity.
  - intros t' kw' reg' reg'' e. rewrite create_adapter_unfold.
    destruct (truthy (default VNone (reg' !! t'))) eqn:Htr;
      intros [= He <-]; (split; [reflexivity|]).
    + right. destruct (reg' !! t') as [v|] eqn:Hv; [|discriminate].
      by exists v.
    + left. by rewrite <- He.
  - intros d m g reg' e Hd.
    unfold create_adapter_by_db_id, bind, lift. by rewrite Hd.
  - intros d m g reg' graph_type Hd.
    unfold create_adapter_by_db_id, bind, lift. rewrite Hd.
    destruct (detect_graph_type_cases _ _ _ Hd) as [-> | ->]; simpl;
      eexists; reflexivity.
Qed.

(** C6: registering a constructor under a tag and then creating with that
    tag invokes the constructor just registered, with the options given,
    whatever the tag was bound to before: another constructor registered
    earlier, or one of the built-in entries. *)
Theorem register_then_create_adapter t c kw (reg : registry) :
  (register t (VClass c) ;;; create_adapter t kw) reg
    = (construct c kw, <[t := VClass c]> reg)
  ∧ (∀ c0, (register t (VClass c0) ;;; register t (VClass c) ;;;
            create_adapter t kw) reg
           = (construct c kw, <[t := VClass c]> reg))
  ∧ (register "upload" (VClass c) ;;; create_adapter "upload" kw) initial_registry
    = (construct c kw, <["upload" := VClass c]> initial_registry)
  ∧ (register "lightrag" (VClass c) ;;; create_adapter "lightrag" kw) initial_registry
    = (construct c kw, <["lightrag" := VClass c]> initial_registry).
Proof.
  assert (H : ∀ t' (reg' : registry),
    (register t' (VClass c) ;;; create_adapter t' kw) reg'
    = (construct c kw, <[t' := VClass c]> reg')).
  { intros t' reg'. unfold bind, register, set_item.
    apply (create_adapter_truthy t' (VClass c)); [|reflexivity].
    apply lookup_insert_eq. }
  split; [apply H|]. split; [|auto].
  intros c0. unfold bind at 1. unfold register at 1. unfold set_item at 1.
  rewrite H. by rewrite insert_insert_eq.
Qed.

(** C10: after a falsy value (such as [None]) is registered under a tag,
    [create_adapter] with that tag raises the unknown-type error for it,
    although the tag is a key of the registry: the test is on the truth value
    of what [dict.get] found, not on membership. *)
Theorem register_falsy_then_create_adapter t v kw (reg : registry) :
  truthy v = false →
  (register t v ;;; create_adapter t kw) reg
    = (Raise (ValueError ("Unknown graph type: " +:+ t)), <[t := v]> reg)
  ∧ t ∈ dom (<[t := v]> reg).
Proof.
  intros Htr. split.
  - unfold bind, register, set_item.
    apply create_adapter_falsy. by rewrite lookup_insert_eq.
  - apply elem_of_dom. rewrite lookup_insert_eq. by eexists.
Qed.

(** *** detect_graph_type *)

(** C3 (as amended): [detect_graph_type] has no error path of its own and
    answers only ["lightrag"] or ["upload"]: ["lightrag"] exactly when a
    truthy manager is supplied, it has [is_lightrag_database], and that call
    returns a truthy value for the identifier; ["upload"] exactly when no
    manager is supplied, or the manager is falsy, or it lacks the method, or
    the call returns a falsy value; and it raises exactly when the call it
    makes raises, with that same exception. *)
Theorem detect_graph_type_decides d (mgr : option manager) :
  (detect_graph_type d mgr = Ok "lightrag" ↔
     ∃ m f v, mgr = Some m ∧ mgr_truth m = true
              ∧ mgr_is_lightrag_database m = Some f
              ∧ f d = Ok v ∧ truthy v = true)
  ∧ (detect_graph_type d mgr = Ok "upload" ↔
       mgr = None
       ∨ ∃ m, mgr = Some m
              ∧ (mgr_truth m = false
                 ∨ mgr_is_lightrag_database m = None
                 ∨ ∃ f v, mgr_is_lightrag_database m = Some f
                          ∧ f d = Ok v ∧ truthy v = false))
  ∧ (∀ e, detect_graph_type d mgr = Raise e ↔
       ∃ m f, mgr = Some m ∧ mgr_truth m = true
              ∧ mgr_is_lightrag_database m = Some f ∧ f d = Raise e)
  ∧ (∀ s, detect_graph_type d mgr = Ok s → s = "lightrag" ∨ s = "upload").
Proof.
  unfold detect_graph_type.
  destruct mgr as [[tr [f|]]|]; simpl;
    [ destruct tr;
      [ destruct (f d) as [v|e0] eqn:Hf; [destruct (truthy v) eqn:Htr|] |]
    | destruct tr | ];
    (split; [|split; [|split]]);
    try (intros e); try (intros s);
    try (split; intros H);
    try (intros H; simplify_eq; by auto);
    repeat match goal with
           | H : _ ∨ _ |- _ => destruct H
           | H : ∃ _, _ |- _ => destruct H
           | H : _ ∧ _ |- _ => destruct H
           end;
    simplify_eq/=; try congruence; eauto 15.
Qed.

(** *** create_adapter_by_db_id *)

(** C4: when the detected type is ["upload"], [create_adapter_by_db_id] is
    the call of [create_adapter] with tag ["upload"], the graph database
    instance forwarded, and a config of [kgdb_name] (the environment's
    [NEO4J_DATABASE], or ["neo4j"] when unset), [kb_label] (the derived
    label) and [kb_id] (the identifier). *)
Theorem create_adapter_by_db_id_upload d m g (reg : registry) :
  detect_graph_type d m = Ok "upload" →
  create_adapter_by_db_id d m g reg
    = create_adapter "upload"
        [ ("graph_db_instance", g);
          ("config", VDict [ ("kgdb_name", VStr (default "neo4j" (environ !! "NEO4J_DATABASE")));
                             ("kb_label", VStr (derive_kb_node_label d));
                             ("kb_id", VStr d) ]) ] reg.
Proof.
  intros Hd. unfold create_adapter_by_db_id, bind, lift. rewrite Hd. simpl.
  unfold environ_get. destruct (environ !! "NEO4J_DATABASE"); reflexivity.
Qed.

(** C5 (as amended): when the detected type is ["lightrag"],
    [create_adapter_by_db_id] is the call of [create_adapter] with tag
    ["lightrag"] and the single option [config], whose only entry is [kb_id];
    the graph database instance is not among the options, and the outcome
    does not depend on it.  What comes back is the LightRAG adapter built on
    that config alone as long as the entry under ["lightrag"] is a
    constructor, as it is in the registry of the class body; once that entry
    has been replaced by a falsy value the call raises the unknown-type error
    for ["lightrag"] instead. *)
Theorem create_adapter_by_db_id_lightrag d m g (reg : registry) :
  detect_graph_type d m = Ok "lightrag" →
  create_adapter_by_db_id d m g reg
    = create_adapter "lightrag" [ ("config", VDict [ ("kb_id", VStr d) ]) ] reg
  ∧ dict_get "graph_db_instance" [ ("config", VDict [ ("kb_id", VStr d) ]) ] = None
  ∧ (∀ g', create_adapter_by_db_id d m g' reg = create_adapter_by_db_id d m g reg)
  ∧ (∀ c, reg !! "lightrag" = Some (VClass c) →
          create_adapter_by_db_id d m g reg
            = (construct c [ ("config", VDict [ ("kb_id", VStr d) ]) ], reg))
  ∧ create_adapter_by_db_id d m g initial_registry
    = (construct "LightRAGGraphAdapter"
         [ ("config", VDict [ ("kb_id", VStr d) ]) ], initial_registry)
  ∧ (truthy (default VNone (reg !! "lightrag")) = false →
     create_adapter_by_db_id d m g reg
       = (Raise (ValueError "Unknown graph type: lightrag"), reg)).
Proof.
  intros Hd.
  assert (H : ∀ g' (reg' : registry), create_adapter_by_db_id d m g' reg'
    = create_adapter "lightrag" [ ("config", VDict [ ("kb_id", VStr d) ]) ] reg').
  { intros g' reg'. unfold create_adapter_by_db_id, bind, lift. by rewrite Hd. }
  repeat apply conj.
  - apply H.
  - reflexivity.
  - intros g'. by rewrite !H.
  - intros c Hc. rewrite H.
    by apply (create_adapter_truthy "lightrag" (VClass c)).
  - rewrite H.
    by apply (create_adapter_truthy "lightrag" (VClass "LightRAGGraphAdapter")).
  - intros Htr. rewrite H. by apply create_adapter_falsy.
Qed.

(** C8: [create_adapter_for_db_id] is [create_adapter_by_db_id] on the same
    three arguments: same outcome, returned or raised, and same registry
    afterwards, from every registry. *)
Theorem create_adapter_for_db_id_delegates d m g (reg : registry) :
  create_adapter_for_db_id d m g reg = create_adapter_by_db_id d m g reg.
Proof. reflexivity. Qed.

(** *** get_supported_types and the registry's keys *)

Lemma perform_dom c (reg : registry) :
  dom reg ⊆ dom (snd (perform c reg)).
Proof.
  destruct c as [t v|t kw| |d m|d m g|d m g]; simpl.
  - unfold bind, register, set_item, ret. simpl.
    rewrite dom_insert_L. set_solver.
  - by rewrite create_adapter_registry.
  - done.
  - unfold bind, lift, ret. by destruct (detect_graph_type d m).
  - by rewrite create_adapter_by_db_id_registry.
  - unfold create_adapter_for_db_id. by rewrite create_adapter_by_db_id_registry.
Qed.

Lemma registry_after_dom calls (reg : registry) :
  dom reg ⊆ dom (registry_after calls reg).
Proof.
  revert reg. induction calls as [|c rest IH]; intros reg; simpl; [done|].
  etrans; [apply (perform_dom c)|apply IH].
Qed.

Lemma initial_registry_dom : dom initial_registry = builtin_types.
Proof.
  unfold initial_registry, builtin_types.
  rewrite !dom_insert_L, dom_empty_L. set_solver.
Qed.


(** C9: the registry's keys always include ["upload"] and ["lightrag"]: the
    class body puts both there, every call on the class leaves every key
    already present in place, and so after any sequence of calls from the
    initial registry both are still keys. *)
Theorem registry_keeps_builtin_types calls :
  builtin_types ⊆ dom initial_registry
  ∧ (∀ c (reg : registry), dom reg ⊆ dom (snd (perform c reg)))
  ∧ builtin_types ⊆ dom (registry_after calls initial_registry).
Proof.
  split; [by rewrite initial_registry_dom|]. split; [apply perform_dom|].
  rewrite <- initial_registry_dom. apply registry_after_dom.
Qed.

(** *** Sequences of calls *)

Lemma perform_registry c (reg : registry) :
  snd (perform c reg)
    = match c with
      | Register t v => <[t := v]> reg
      | _ => reg
      end.
Proof.
  destruct c as [t v|t kw| |d m|d m g|d m g]; simpl.
  - reflexivity.
  - apply create_adapter_registry.
  - reflexivity.
  - unfold bind, lift, ret. by destruct (detect_graph_type d m).
  - apply create_adapter_by_db_id_registry.
  - unfold create_adapter_for_db_id. apply create_adapter_by_db_id_registry.
Qed.

(** X1: the registry after any sequence of calls is the starting registry
    with the stores of its [register] calls applied in order; every other
    method, whether it returns or raises, leaves the registry exactly as it
    found it. *)
Theorem registry_after_registrations calls (reg : registry) :
  registry_after calls reg = store_all reg (registrations calls).
Proof.
  revert reg. induction calls as [|c rest IH]; intros reg; [reflexivity|].
  simpl registry_after. rewrite IH, perform_registry.
  destruct c; reflexivity.
Qed.

Lemma registry_after_lookup_last calls t (reg : registry) :
  registry_after calls reg !! t
    = match last_registered t calls with
      | Some v => Some v
      | None => reg !! t
      end.
Proof.
  revert reg. induction calls as [|c rest IH]; intros reg; [reflexivity|].
  simpl. rewrite IH, perform_registry.
  destruct (last_registered t rest) as [v|]; [reflexivity|].
  destruct c as [t' v'| | | | |]; try reflexivity.
  destruct (String.eqb_spec t' t) as [->|Hne].
  - apply lookup_insert_eq.
  - by apply lookup_insert_ne.
Qed.

(** X2: after any sequence of calls, the entry of a tag is what the latest
    [register] call for that tag stored, or the starting entry when there
    was none; so [create_adapter] invokes the constructor registered last
    for its tag, however many other calls came in between. *)
Theorem create_adapter_after_calls calls t kw (reg : registry) :
  registry_after calls reg !! t
    = match last_registered t calls with
      | Some v => Some v
      | None => reg !! t
      end
  ∧ (∀ c, last_registered t calls = Some (VClass c) →
          create_adapter t kw (registry_after calls reg)
            = (construct c kw, registry_after calls reg))
  ∧ (last_registered t calls = None →
     fst (create_adapter t kw (registry_after calls reg))
       = fst (create_adapter t kw reg)).
Proof.
  pose proof (registry_after_lookup_last calls t reg) as Hl.
  split; [exact Hl|]. split.
  - intros c Hc. rewrite Hc in Hl.
    by apply (create_adapter_truthy t (VClass c)).
  - intros Hn. rewrite Hn in Hl.
    rewrite !create_adapter_unfold, Hl. reflexivity.
Qed.

Lemma last_registered_class calls t v :
  registers_classes calls = true →
  last_registered t calls = Some v → is_class v = true.
Proof.
  unfold registers_classes.
  induction calls as [|c rest IH]; simpl; [discriminate|].
  intros Hall. destruct (last_registered t rest) as [v'|] eqn:Hlast.
  - intros [= <-]. apply IH; [|reflexivity].
    destruct c; simpl in Hall; try done.
    by apply andb_prop in Hall as [_ ?].
  - destruct c as [t' v'| | | | |]; try discriminate.
    destruct (String.eqb t' t); [|discriminate].
    intros [= <-]. simpl in Hall. by apply andb_prop in Hall as [? _].
Qed.

Lemma initial_registry_classes t v :
  initial_registry !! t = Some v → is_class v = true.
Proof.
  unfold initial_registry. intros H.
  apply lookup_insert_Some in H as [[_ <-]|[_ H]]; [reflexivity|].
  apply lookup_insert_Some in H as [[_ <-]|[_ H]]; [reflexivity|].
  by rewrite lookup_empty in H.
Qed.

(** X3: as long as clients register only classes, every key of the registry
    reached from the initial one by any sequence of calls holds a class, and
    [create_adapter] with that key is exactly that class's constructor call:
    it raises neither the unknown-type error nor a not-callable error. *)
Theorem create_adapter_registered_key calls t kw :
  registers_classes calls = true →
  t ∈ dom (registry_after calls initial_registry) →
  ∃ c, registry_after calls initial_registry !! t = Some (VClass c)
       ∧ create_adapter t kw (registry_after calls initial_registry)
         = (construct c kw, registry_after calls initial_registry).
Proof.
  intros Hcl [v Hv]%elem_of_dom.
  assert (Hc : is_class v = true).
  { rewrite registry_after_lookup_last in Hv.
    destruct (last_registered t calls) as [v'|] eqn:Hlast.
    - injection Hv as <-. by apply (last_registered_class calls t).
    - by apply (initial_registry_classes t). }
  destruct v as [| | | | |c|]; try discriminate.
  exists c. split; [exact Hv|].
  by apply (create_adapter_truthy t (VClass c)).
Qed.

(** X4: every tag that [get_supported_types] describes can be created: as
    long as clients register only classes, [create_adapter] with a described
    tag is a constructor call, after any sequence of calls from the initial
    registry. *)
Theorem supported_types_creatable calls t kw descriptions (reg : registry) :
  registers_classes calls = true →
  fst (get_supported_types reg) = Ok descriptions →
  t ∈ dict_keys descriptions →
  ∃ c, create_adapter t kw (registry_after calls initial_registry)
       = (construct c kw, registry_after calls initial_registry).
Proof.
  intros Hcl [= <-] Ht. simpl in Ht.
  assert (Hdom : t ∈ dom (registry_after calls initial_registry)).
  { apply (registry_after_dom calls initial_registry).
    rewrite initial_registry_dom. unfold builtin_types.
    rewrite !elem_of_cons in Ht.
    destruct Ht as [->|[->|Ht]]; [set_solver|set_solver|].
    by apply elem_of_nil in Ht. }
  apply elem_of_dom in Hdom as [v Hv].
  assert (Hc : is_class v = true).
  { rewrite registry_after_lookup_last in Hv.
    destruct (last_registered t calls) as [v'|] eqn:Hlast.
    - injection Hv as <-. by apply (last_registered_class calls t).
    - by apply (initial_registry_classes t). }
  destruct v as [| | | | |c|]; try discriminate.
  exists c. by apply (create_adapter_truthy t (VClass c)).
Qed.

(** *** What a registration does not touch *)

(** X5: registering under one tag does not change what [create_adapter]
    answers for any other tag. *)
Theorem register_other_tag t v t' kw (reg : registry) :
  t ≠ t' →
  (register t v ;;; create_adapter t' kw) reg
    = (fst (create_adapter t' kw reg), <[t := v]> reg).
Proof.
  intros Hne. unfold bind, register, set_item.
  rewrite !create_adapter_unfold. simpl.
  by rewrite lookup_insert_ne.
Qed.

(** X6: [create_adapter_by_db_id] only ever looks up the two built-in tags:
    registering anything under any other tag leaves its outcome as it was,
    so a custom adapter is never picked by identifier. *)
Theorem register_custom_tag_by_db_id t v d m g (reg : registry) :
  t ≠ "upload" → t ≠ "lightrag" →
  (register t v ;;; create_adapter_by_db_id d m g) reg
    = (fst (create_adapter_by_db_id d m g reg), <[t := v]> reg).
Proof.
  intros Hu Hl. unfold bind at 1. unfold register, set_item.
  unfold create_adapter_by_db_id, bind, lift.
  destruct (detect_graph_type d m) as [s|e]; [|reflexivity].
  destruct (String.eqb s "lightrag");
    rewrite !create_adapter_unfold; simpl; by rewrite lookup_insert_ne.
Qed.

(** *** create_adapter_by_db_id end to end *)

(** X7: there is no fallback between the two adapters: when the entry of the
    detected type is missing or falsy, [create_adapter_by_db_id] raises the
    unknown-type error for that detected type, and the registry is left
    alone. *)
Theorem create_adapter_by_db_id_no_fallback d m g graph_type (reg : registry) :
  detect_graph_type d m = Ok graph_type →
  truthy (default VNone (reg !! graph_type)) = false →
  create_adapter_by_db_id d m g reg
    = (Raise (ValueError ("Unknown graph type: " +:+ graph_type)), reg).
Proof.
  intros Hd Htr. unfold create_adapter_by_db_id, bind, lift. rewrite Hd.
  destruct (detect_graph_type_cases _ _ _ Hd) as [-> | ->]; simpl;
    by apply create_adapter_falsy.
Qed.

(** X8: on the registry of the class body, [create_adapter_by_db_id] is
    decided by detection alone: the manager's exception when its call
    raises, else the LightRAG constructor on the [kb_id] config, else the
    upload constructor on the graph database instance and the three-entry
    config; the unknown-type error cannot occur. *)
Theorem create_adapter_by_db_id_builtin d m g :
  create_adapter_by_db_id d m g initial_registry
    = (match detect_graph_type d m with
       | Raise e => Raise e
       | Ok graph_type =>
           if String.eqb graph_type "lightrag"
           then construct "LightRAGGraphAdapter"
                  [ ("config", VDict [ ("kb_id", VStr d) ]) ]
           else construct "UploadGraphAdapter"
                  [ ("graph_db_instance", g);
                    ("config",
                     VDict [ ("kgdb_name", VStr (default "neo4j" (environ !! "NEO4J_DATABASE")));
                             ("kb_label", VStr (derive_kb_node_label d));
                             ("kb_id", VStr d) ]) ]
       end, initial_registry).
Proof.
  unfold create_adapter_by_db_id, bind, lift.
  destruct (detect_graph_type d m) as [s|e]; [|reflexivity].
  destruct (String.eqb s "lightrag").
  - by apply (create_adapter_truthy "lightrag" (VClass "LightRAGGraphAdapter")).
  - unfold environ_get.
    replace (match environ !! "NEO4J_DATABASE" with Some s0 => s0 | None => "neo4j" end)
      with (default "neo4j" (environ !! "NEO4J_DATABASE"))
      by (by destruct (environ !! "NEO4J_DATABASE")).
    by apply (create_adapter_truthy "upload" (VClass "UploadGraphAdapter")).
Qed.

(** *** Errors *)

(** X9: the unknown-type error names its tag without ambiguity: two calls of
    [create_adapter] that fail on a missing or falsy entry raise the same
    exception only when they were given the same tag. *)
Theorem unknown_type_error_names_tag t1 t2 kw1 kw2 (reg1 reg2 : registry) :
  truthy (default VNone (reg1 !! t1)) = false →
  truthy (default VNone (reg2 !! t2)) = false →
  fst (create_adapter t1 kw1 reg1) = fst (create_adapter t2 kw2 reg2) →
  t1 = t2.
Proof.
  intros H1 H2. rewrite !create_adapter_unfold, H1, H2. simpl.
  intros [= H]. exact H.
Qed.

(** X10: [register] checks nothing, so a truthy value that is not callable (a
    class name given as a string, a number, a dict) is stored, and the
    failure comes only at [create_adapter], as the interpreter's not-callable
    [TypeError] naming the value's type, not as the unknown-type error. *)
Theorem register_not_callable_then_create_adapter t v kw (reg : registry) :
  truthy v = true →
  (∃ b, v = VBool b) ∨ (∃ n, v = VInt n) ∨ (∃ s, v = VStr s)
    ∨ (∃ items, v = VDict items) →
  (register t v ;;; create_adapter t kw) reg
    = (Raise (TypeError ("'" +:+ type_name v +:+ "' object is not callable")),
       <[t := v]> reg).
Proof.
  intros Htr Hv. unfold bind, register, set_item.
  rewrite (create_adapter_truthy t v kw _ (lookup_insert_eq _ _ _) Htr).
  destruct Hv as [[? ->]|[[? ->]|[[? ->]|[? ->]]]]; reflexivity.
Qed.

End Factory.

(** ** The environment *)

(** X11: of the whole environment, [create_adapter_by_db_id] reads only
    [NEO4J_DATABASE]: two environments that agree on it give the same
    outcome. *)
Theorem create_adapter_by_db_id_environment
    construct derive (env env' : gmap string string) d m g (reg : registry) :
  env !! "NEO4J_DATABASE" = env' !! "NEO4J_DATABASE" →
  create_adapter_by_db_id construct derive env d m g reg
    = create_adapter_by_db_id construct derive env' d m g reg.
Proof.
  intros Henv. unfold create_adapter_by_db_id, environ_get.
  by rewrite Henv.
Qed.

(** X12: on the LightRAG path neither the environment nor the label
    derivation is used: with any other environment and any other derivation
    the outcome is the same. *)
Theorem lightrag_path_ignores_environment
    construct derive derive' (env env' : gmap string string) d m g
    (reg : registry) :
  detect_graph_type d m = Ok "lightrag" →
  create_adapter_by_db_id construct derive env d m g reg
    = create_adapter_by_db_id construct derive' env' d m g reg.
Proof.
  intros Hd. unfold create_adapter_by_db_id, bind, lift. by rewrite Hd.
Qed.

(** ** The methods on concrete inputs *)

(** C1, on the built-in ["upload"] entry. *)
Lemma create_adapter_constructs_witness :
  initial_registry !! "upload" = Some (VClass "UploadGraphAdapter")
  ∧ create_adapter record_instance "upload" [ ("config", VDict []) ] initial_registry
    = (Ok (VObj "UploadGraphAdapter" [ ("config", VDict []) ]), initial_registry).
Proof.
  split; [reflexivity|].
  apply (create_adapter_constructs record_instance
           "upload" "UploadGraphAdapter" [ ("config", VDict []) ] initial_registry).
  reflexivity.
Defined.

(** C1 as first stated fails: a tag can be a key of the registry and still
    make [create_adapter] raise, when the value stored under it is falsy. *)
Lemma create_adapter_present_falsy_entry :
  "legacy" ∈ dom (<["legacy" := VNone]> initial_registry)
  ∧ (<["legacy" := VNone]> initial_registry) !! "legacy" = Some VNone
  ∧ create_adapter record_instance "legacy" [] (<["legacy" := VNone]> initial_registry)
    = (Raise (ValueError "Unknown graph type: legacy"),
       <["legacy" := VNone]> initial_registry).
Proof.
  split; [rewrite dom_insert_L; set_solver|].
  split; [apply lookup_insert_eq|].
  apply create_adapter_falsy. by rewrite lookup_insert_eq.
Qed.

(** C2, on a tag nobody registered. *)
Lemma create_adapter_unknown_type_witness :
  initial_registry !! "__nonexistent__" = None
  ∧ create_adapter record_instance "__nonexistent__" [] initial_registry
    = (Raise (ValueError "Unknown graph type: __nonexistent__"), initial_registry).
Proof.
  split; [reflexivity|].
  exact (proj1 (create_adapter_unknown_type record_instance prefix_label ∅
                  "__nonexistent__" [] initial_registry eq_refl)).
Defined.

(** C2 as first stated fails: the unknown-type error for an absent tag is not
    the only way the factory fails.  With a constructor that never raises, a
    class name stored as a string makes [create_adapter] raise the
    not-callable [TypeError], and a present tag whose entry is [None] raises
    the unknown-type error. *)
Lemma create_adapter_other_failures :
  (<["upload" := VStr "UploadGraphAdapter"]> initial_registry) !! "upload"
    = Some (VStr "UploadGraphAdapter")
  ∧ create_adapter record_instance "upload" []
      (<["upload" := VStr "UploadGraphAdapter"]> initial_registry)
    = (Raise (TypeError "'str' object is not callable"),
       <["upload" := VStr "UploadGraphAdapter"]> initial_registry)
  ∧ (<["upload" := VNone]> initial_registry) !! "upload" = Some VNone
  ∧ create_adapter record_instance "upload" []
      (<["upload" := VNone]> initial_registry)
    = (Raise (ValueError "Unknown graph type: upload"),
       <["upload" := VNone]> initial_registry).
Proof.
  split; [apply lookup_insert_eq|]. split.
  - apply (create_adapter_truthy record_instance "upload"
             (VStr "UploadGraphAdapter"));
      [apply lookup_insert_eq | reflexivity].
  - split; [apply lookup_insert_eq|].
    apply create_adapter_falsy. by rewrite lookup_insert_eq.
Qed.

(** C3 as first stated fails twice over: the call raises when the manager's
    classification raises, so it is not total; and a supplied manager that
    has the method and answers true still gives ["upload"] when the manager
    object is falsy. *)
Lemma detect_graph_type_raises_and_falsy_manager :
  detect_graph_type "kb-1" (Some failing_manager)
    = Raise (OtherError "RuntimeError" "metadata store unavailable")
  ∧ mgr_is_lightrag_database falsy_manager
    = Some (λ _, Ok (VBool true))
  ∧ detect_graph_type "kb-1" (Some falsy_manager) = Ok "upload".
Proof. repeat split. Qed.

(** C4, the scenario of identifier kb-42 with [NEO4J_DATABASE] set to mydb and
    no manager. *)
Lemma create_adapter_by_db_id_upload_witness :
  detect_graph_type "kb-42" None = Ok "upload"
  ∧ create_adapter_by_db_id record_instance prefix_label
      {[ "NEO4J_DATABASE" := "mydb" ]} "kb-42" None (VObj "Neo4jDB" []) initial_registry
    = (Ok (VObj "UploadGraphAdapter"
             [ ("graph_db_instance", VObj "Neo4jDB" []);
               ("config", VDict [ ("kgdb_name", VStr "mydb");
                                  ("kb_label", VStr "kb_kb-42");
                                  ("kb_id", VStr "kb-42") ]) ]),
       initial_registry).
Proof.
  split; [reflexivity|].
  etrans.
  - apply (create_adapter_by_db_id_upload record_instance prefix_label
             {[ "NEO4J_DATABASE" := "mydb" ]} "kb-42" None (VObj "Neo4jDB" [])
             initial_registry).
    reflexivity.
  - reflexivity.
Defined.

(** The same scenario with [NEO4J_DATABASE] unset. *)
Example default_database_scenario :
  create_adapter_by_db_id record_instance prefix_label ∅ "kb-42" None VNone
    initial_registry
  = (Ok (VObj "UploadGraphAdapter"
           [ ("graph_db_instance", VNone);
             ("config", VDict [ ("kgdb_name", VStr "neo4j");
                                ("kb_label", VStr "kb_kb-42");
                                ("kb_id", VStr "kb-42") ]) ]),
     initial_registry).
Proof. reflexivity. Qed.

(** C5, the scenario of identifier kb-lr with a manager that classifies it as
    LightRAG. *)
Lemma create_adapter_by_db_id_lightrag_witness :
  detect_graph_type "kb-lr" (Some lightrag_manager) = Ok "lightrag"
  ∧ create_adapter_by_db_id record_instance prefix_label ∅
      "kb-lr" (Some lightrag_manager) (VObj "Neo4jDB" []) initial_registry
    = (Ok (VObj "LightRAGGraphAdapter" [ ("config", VDict [ ("kb_id", VStr "kb-lr") ]) ]),
       initial_registry).
Proof.
  split; [reflexivity|].
  etrans.
  - exact (proj1 (create_adapter_by_db_id_lightrag record_instance prefix_label ∅
             "kb-lr" (Some lightrag_manager) (VObj "Neo4jDB" []) initial_registry
             eq_refl)).
  - reflexivity.
Defined.

(** C5 as first stated fails: with [None] stored over the ["lightrag"] entry
    the detected type is still ["lightrag"], and no adapter comes back. *)
Lemma create_adapter_by_db_id_lightrag_unregistered :
  detect_graph_type "kb-lr" (Some lightrag_manager) = Ok "lightrag"
  ∧ create_adapter_by_db_id record_instance prefix_label ∅
      "kb-lr" (Some lightrag_manager) (VObj "Neo4jDB" [])
      (<["lightrag" := VNone]> initial_registry)
    = (Raise (ValueError "Unknown graph type: lightrag"),
       <["lightrag" := VNone]> initial_registry).
Proof.
  split; [reflexivity|].
  unfold create_adapter_by_db_id, bind, lift. simpl.
  apply create_adapter_falsy. by rewrite lookup_insert_eq.
Qed.

(** C10, with [None] registered under a fresh tag. *)
Lemma register_falsy_then_create_adapter_witness :
  truthy VNone = false
  ∧ (register "legacy" VNone ;;; create_adapter record_instance "legacy" [])
      initial_registry
    = (Raise (ValueError "Unknown graph type: legacy"),
       <["legacy" := VNone]> initial_registry)
  ∧ "legacy" ∈ dom (<["legacy" := VNone]> initial_registry).
Proof.
  split; [reflexivity|].
  apply (register_falsy_then_create_adapter record_instance
           "legacy" VNone [] initial_registry).
  reflexivity.
Defined.

(** Registering over a built-in entry: the new constructor is the one used. *)
Example register_overwrites_upload :
  (register "upload" (VClass "CustomAdapter") ;;;
   create_adapter record_instance "upload" [ ("config", VDict []) ]) initial_registry
  = (Ok (VObj "CustomAdapter" [ ("config", VDict []) ]),
     <["upload" := VClass "CustomAdapter"]> initial_registry).
Proof.
  unfold bind, register, set_item.
  apply (create_adapter_truthy record_instance "upload" (VClass "CustomAdapter"));
    [apply lookup_insert_eq | reflexivity].
Qed.

(** A truthy entry that is not a class: the interpreter's own error comes
    through unchanged. *)
Example create_adapter_not_callable :
  create_adapter record_instance "odd" [] (<["odd" := VStr "UploadGraphAdapter"]> initial_registry)
  = (Raise (TypeError "'str' object is not callable"),
     <["odd" := VStr "UploadGraphAdapter"]> initial_registry).
Proof.
  apply (create_adapter_truthy record_instance "odd" (VStr "UploadGraphAdapter"));
    [apply lookup_insert_eq | reflexivity].
Qed.

(** ** The further properties on concrete inputs *)

(** X3, on a custom tag registered between two other calls. *)
Lemma create_adapter_registered_key_witness :
  ∃ c, registry_after record_instance prefix_label ∅
         [ GetSupportedTypes; Register "custom" (VClass "CustomAdapter");
           CreateAdapter "absent" [] ] initial_registry !! "custom"
       = Some (VClass c)
     ∧ create_adapter record_instance "custom" []
         (registry_after record_instance prefix_label ∅
            [ GetSupportedTypes; Register "custom" (VClass "CustomAdapter");
              CreateAdapter "absent" [] ] initial_registry)
       = (record_instance c [],
          registry_after record_instance prefix_label ∅
            [ GetSupportedTypes; Register "custom" (VClass "CustomAdapter");
              CreateAdapter "absent" [] ] initial_registry).
Proof.
  apply (create_adapter_registered_key record_instance prefix_label ∅
           [ GetSupportedTypes; Register "custom" (VClass "CustomAdapter");
             CreateAdapter "absent" [] ] "custom" []).
  - reflexivity.
  - apply elem_of_dom. exists (VClass "CustomAdapter"). reflexivity.
Defined.

(** X4, on the described tag lightrag after the upload entry was replaced. *)
Lemma supported_types_creatable_witness :
  ∃ c, create_adapter record_instance "lightrag" []
         (registry_after record_instance prefix_label ∅
            [ Register "upload" (VClass "CustomAdapter") ] initial_registry)
       = (record_instance c [],
          registry_after record_instance prefix_label ∅
            [ Register "upload" (VClass "CustomAdapter") ] initial_registry).
Proof.
  apply (supported_types_creatable record_instance prefix_label ∅
           [ Register "upload" (VClass "CustomAdapter") ] "lightrag" []
           (VDict [ ("upload", VStr "上传文件图谱 - 支持embedding和阈值查询");
                    ("lightrag", VStr "LightRAG知识图谱 - 基于kb_id标签的图谱") ])
           initial_registry).
  - reflexivity.
  - reflexivity.
  - simpl. rewrite !elem_of_cons. right. by left.
Defined.

(** X5, registering a custom tag and then creating the upload adapter. *)
Lemma register_other_tag_witness :
  (register "custom" (VClass "CustomAdapter") ;;;
   create_adapter record_instance "upload" []) initial_registry
  = (fst (create_adapter record_instance "upload" [] initial_registry),
     <["custom" := VClass "CustomAdapter"]> initial_registry).
Proof.
  apply (register_other_tag record_instance
           "custom" (VClass "CustomAdapter") "upload" [] initial_registry).
  discriminate.
Defined.

(** X6, registering a custom tag and then creating by identifier. *)
Lemma register_custom_tag_by_db_id_witness :
  (register "custom" (VClass "CustomAdapter") ;;;
   create_adapter_by_db_id record_instance prefix_label ∅ "kb-42" None VNone)
    initial_registry
  = (fst (create_adapter_by_db_id record_instance prefix_label ∅ "kb-42" None VNone
            initial_registry),
     <["custom" := VClass "CustomAdapter"]> initial_registry).
Proof.
  apply (register_custom_tag_by_db_id record_instance prefix_label ∅
           "custom" (VClass "CustomAdapter") "kb-42" None VNone initial_registry);
    discriminate.
Defined.

(** X7, with [None] stored over the upload entry and no manager. *)
Lemma create_adapter_by_db_id_no_fallback_witness :
  create_adapter_by_db_id record_instance prefix_label ∅ "kb-42" None VNone
    (<["upload" := VNone]> initial_registry)
  = (Raise (ValueError "Unknown graph type: upload"),
     <["upload" := VNone]> initial_registry).
Proof.
  apply (create_adapter_by_db_id_no_fallback record_instance prefix_label ∅
           "kb-42" None VNone "upload" (<["upload" := VNone]> initial_registry)).
  - reflexivity.
  - reflexivity.
Defined.

(** X9, on a tag that is missing in one registry and falsy in another. *)
Lemma unknown_type_error_names_tag_witness :
  initial_registry !! "ghost" = None
  ∧ (<["ghost" := VNone]> initial_registry) !! "ghost" = Some VNone
  ∧ fst (create_adapter record_instance "ghost" [] initial_registry)
    = fst (create_adapter record_instance "ghost" [ ("config", VDict []) ]
             (<["ghost" := VNone]> initial_registry))
  ∧ "ghost" = "ghost".
Proof.
  split; [reflexivity|]. split; [reflexivity|]. split; [reflexivity|].
  apply (unknown_type_error_names_tag record_instance
           "ghost" "ghost" [] [ ("config", VDict []) ]
           initial_registry (<["ghost" := VNone]> initial_registry)).
  - reflexivity.
  - reflexivity.
  - reflexivity.
Defined.

(** X10, with the class name registered as a string. *)
Lemma register_not_callable_then_create_adapter_witness :
  (register "upload" (VStr "UploadGraphAdapter") ;;;
   create_adapter record_instance "upload" []) initial_registry
  = (Raise (TypeError "'str' object is not callable"),
     <["upload" := VStr "UploadGraphAdapter"]> initial_registry).
Proof.
  apply (register_not_callable_then_create_adapter record_instance
           "upload" (VStr "UploadGraphAdapter") [] initial_registry).
  - reflexivity.
  - right. right. left. by eexists.
Defined.

(** X11, with an unrelated variable added to the environment. *)
Lemma create_adapter_by_db_id_environment_witness :
  create_adapter_by_db_id record_instance prefix_label
    {[ "NEO4J_DATABASE" := "mydb" ]} "kb-42" None VNone initial_registry
  = create_adapter_by_db_id record_instance prefix_label
      (<["HOME" := "/root"]> {[ "NEO4J_DATABASE" := "mydb" ]})
      "kb-42" None VNone initial_registry.
Proof.
  apply (create_adapter_by_db_id_environment record_instance prefix_label
           {[ "NEO4J_DATABASE" := "mydb" ]}
           (<["HOME" := "/root"]> {[ "NEO4J_DATABASE" := "mydb" ]})
           "kb-42" None VNone initial_registry).
  reflexivity.
Defined.

(** X12, with the database variable set on one side only. *)
Lemma lightrag_path_ignores_environment_witness :
  create_adapter_by_db_id record_instance prefix_label ∅
    "kb-lr" (Some lightrag_manager) VNone initial_registry
  = create_adapter_by_db_id record_instance (λ d, d)
      {[ "NEO4J_DATABASE" := "mydb" ]}
      "kb-lr" (Some lightrag_manager) VNone initial_registry.
Proof.
  apply (lightrag_path_ignores_environment record_instance
           prefix_label (λ d, d) ∅ {[ "NEO4J_DATABASE" := "mydb" ]}
           "kb-lr" (Some lightrag_manager) VNone initial_registry).
  reflexivity.
Defined.
